(** * COVA restaurant backend: authentication, role gate and order flow

    A shallow embedding of [main.py] and [schemas.py].  Python values are
    modelled by the type [value]; dictionaries (Mongo documents, JWT claims,
    JSON responses) are insertion-ordered association lists; handlers are
    functions in a small state-and-exception monad over the document store.
    The clock and the entropy used for salting are passed in explicitly.
    The external libraries (python-jose, passlib's bcrypt handler) are the
    operations of the record [Runtime]. *)

From Stdlib Require Import ZArith Ascii String List Bool Lia.
From Stdlib Require Import Floats.PrimFloat.
From Stdlib Require Import DecimalString.
From stdpp Require Import gmap strings list.
Import ListNotations.

Set Warnings "-register-all".
Set Warnings "-inexact-float".

Local Open Scope Z_scope.
Local Open Scope string_scope.
Local Open Scope list_scope.

(** ** Python values *)

Module Py.

(** The values that flow through the handlers.  [VObjectId] carries the
    24-digit hexadecimal text of a BSON ObjectId, [VDatetime] an aware UTC
    datetime in microseconds since the epoch. *)
Inductive value : Type :=
| VNone
| VBool (b : bool)
| VInt (n : Z)
| VFloat (x : float)
| VStr (s : string)
| VObjectId (hex : string)
| VDatetime (t : Z)
| VList (xs : list value)
| VDict (kv : list (string * value)).

Abbreviation dict := (list (string * value)).

(** [d.get(k)]: the value under [k], Python's [None] when the key is absent. *)
Fixpoint get (d : dict) (k : string) : value :=
  match d with
  | [] => VNone
  | (k', v) :: d' => if String.eqb k' k then v else get d' k
  end.

(** [d[k] = v]: overwrite in place when the key exists, else append. *)
Fixpoint setitem (d : dict) (k : string) (v : value) : dict :=
  match d with
  | [] => [(k, v)]
  | (k', v') :: d' =>
      if String.eqb k' k then (k', v) :: d' else (k', v') :: setitem d' k v
  end.

(** [d[k]]: [KeyError] is modelled by [None]. *)
Fixpoint getitem (d : dict) (k : string) : option value :=
  match d with
  | [] => None
  | (k', v) :: d' => if String.eqb k' k then Some v else getitem d' k
  end.

(** [d.update(other)]. *)
Definition update (d other : dict) : dict :=
  fold_left (fun acc kv => setitem acc (fst kv) (snd kv)) other d.

(** Truthiness of a dictionary: an empty one is falsy. *)
Definition dict_truthy (d : dict) : bool :=
  match d with [] => false | _ :: _ => true end.

(** Truthiness of the result of a lookup that yields a document or [None]. *)
Definition truthy (o : option dict) : bool :=
  match o with None => false | Some d => dict_truthy d end.

(** Structural equality of values, used for equality filters. *)
Fixpoint value_eqb (a b : value) {struct a} : bool :=
  match a, b with
  | VNone, VNone => true
  | VBool x, VBool y => Bool.eqb x y
  | VInt x, VInt y => Z.eqb x y
  | VFloat x, VFloat y => PrimFloat.eqb x y
  | VStr x, VStr y => String.eqb x y
  | VObjectId x, VObjectId y => String.eqb x y
  | VDatetime x, VDatetime y => Z.eqb x y
  | VList xs, VList ys =>
      (fix go (l1 l2 : list value) : bool :=
         match l1, l2 with
         | [], [] => true
         | x :: l1', y :: l2' => value_eqb x y && go l1' l2'
         | _, _ => false
         end) xs ys
  | VDict xs, VDict ys =>
      (fix go (l1 l2 : list (string * value)) : bool :=
         match l1, l2 with
         | [], [] => true
         | (k1, x) :: l1', (k2, y) :: l2' =>
             String.eqb k1 k2 && value_eqb x y && go l1' l2'
         | _, _ => false
         end) xs ys
  | _, _ => false
  end.

(** [x != "literal"] for an arbitrary value [x]: only a [str] with the same
    text compares equal to a string literal. *)
Definition ne_str (x : value) (lit : string) : bool :=
  match x with
  | VStr s => negb (String.eqb s lit)
  | _ => true
  end.

(** ASCII lower-casing, enough for [scheme.lower() != "bearer"]. *)
Definition lower_ascii (c : ascii) : ascii :=
  let n := nat_of_ascii c in
  if (Nat.leb 65 n && Nat.leb n 90)%bool then ascii_of_nat (n + 32) else c.

Fixpoint lower (s : string) : string :=
  match s with
  | EmptyString => EmptyString
  | String c s' => String (lower_ascii c) (lower s')
  end.

(** [s.partition(" ")]: text before the first space, and text after it
    (both components empty-padded when there is no space). *)
Fixpoint partition_space (s : string) : string * string :=
  match s with
  | EmptyString => (EmptyString, EmptyString)
  | String c s' =>
      if Ascii.eqb c " "%char then (EmptyString, s')
      else let '(a, b) := partition_space s' in (String c a, b)
  end.

(** [s.startswith(p)]. *)
Fixpoint startswith (s p : string) : bool :=
  match p, s with
  | EmptyString, _ => true
  | String c p', String d s' => Ascii.eqb c d && startswith s' p'
  | String _ _, EmptyString => false
  end.

End Py.
Import Py.

(** ** Exceptions and results *)

(** The exceptions that can leave a handler.  [ExpiredSignatureError] and
    [JWTClaimsError] are subclasses of jose's [JWTError]; the passlib errors
    are subclasses of [ValueError] and [TypeError]. *)
Inductive exn : Type :=
| HTTPException (status_code : Z) (detail : string)
                (headers : list (string * string))
| JWTError
| ExpiredSignatureError
| JWTClaimsError
| UnknownHashError
| ExpectedStringError
| MalformedHashError
| PasswordValueError
| ValidationError
| OverflowError
| KeyError
| StoreError.

(** [isinstance(e, JWTError)], the test made by [except JWTError]. *)
Definition is_JWTError (e : exn) : bool :=
  match e with
  | JWTError | ExpiredSignatureError | JWTClaimsError => true
  | _ => false
  end.

Inductive result (A : Type) : Type :=
| Ret (a : A)
| Raise (e : exn).
Arguments Ret {A} a.
Arguments Raise {A} e.

Definition HTTP_401_UNAUTHORIZED : Z := 401.

(** ** Time *)

(** A [timedelta] is a signed number of microseconds; a [datetime] is a
    number of microseconds since the epoch, between year 1 and year 9999. *)
Definition timedelta_minutes (m : Z) : Z := m * 60 * 1000000.

Definition datetime_min : Z := -62135596800000000.
Definition datetime_max : Z := 253402300799999999.

(** [t + d] on datetimes raises [OverflowError] outside the supported
    range. *)
Definition datetime_add (t d : Z) : result Z :=
  let r := t + d in
  if ((datetime_min <=? r) && (r <=? datetime_max))%Z then Ret r
  else Raise OverflowError.

(** [expires_delta or default]: [None] and the zero duration are both
    falsy. *)
Definition timedelta_or (expires_delta : option Z) (default : Z) : Z :=
  match expires_delta with
  | None => default
  | Some d => if (d =? 0)%Z then default else d
  end.

(** ** Schemas ([schemas.py]) *)

Definition opt_str (o : option string) : value :=
  match o with None => VNone | Some s => VStr s end.

Module User.
Record t : Type := mk
  { name : string;
    email : string;
    password_hash : string;
    phone : option string;
    is_active : bool;
    role : string }.

Definition model_dump (u : t) : dict :=
  [ ("name", VStr (name u));
    ("email", VStr (email u));
    ("password_hash", VStr (password_hash u));
    ("phone", opt_str (phone u));
    ("is_active", VBool (is_active u));
    ("role", VStr (role u)) ].
End User.

Module MenuItem.
Record t : Type := mk
  { name : string;
    description : option string;
    price : float;
    category : string;
    image : option string;
    is_bestseller : bool }.

Definition model_dump (m : t) : dict :=
  [ ("name", VStr (name m));
    ("description", opt_str (description m));
    ("price", VFloat (price m));
    ("category", VStr (category m));
    ("image", opt_str (image m));
    ("is_bestseller", VBool (is_bestseller m)) ].
End MenuItem.

Module OrderItem.
Record t : Type := mk
  { item_id : string;
    quantity : Z }.

Definition model_dump (i : t) : dict :=
  [ ("item_id", VStr (item_id i)); ("quantity", VInt (quantity i)) ].
End OrderItem.

Module Order.
Record t : Type := mk
  { user_id : option string;
    items : list OrderItem.t;
    total : float;
    status : string;
    address : option string;
    notes : option string }.

Definition model_dump (o : t) : dict :=
  [ ("user_id", opt_str (user_id o));
    ("items", VList (map (fun i => VDict (OrderItem.model_dump i)) (items o)));
    ("total", VFloat (total o));
    ("status", VStr (status o));
    ("address", opt_str (address o));
    ("notes", opt_str (notes o)) ].
End Order.

Module Booking.
Record t : Type := mk
  { name : string;
    phone : string;
    email : option string;
    date : string;
    time : string;
    guests : Z;
    notes : option string }.

Definition model_dump (b : t) : dict :=
  [ ("name", VStr (name b));
    ("phone", VStr (phone b));
    ("email", opt_str (email b));
    ("date", VStr (date b));
    ("time", VStr (time b));
    ("guests", VInt (guests b));
    ("notes", opt_str (notes b)) ].
End Booking.

(** ** The monad of handlers *)

#[global] Instance result_ret : MRet result := fun _ a => Ret a.
#[global] Instance result_bind : MBind result := fun _ _ k r =>
  match r with
  | Ret a => k a
  | Raise e => Raise e
  end.

(** Modelled from the spec: the document store reached through the handle
    [db] of module [database], which is not part of the sources.  A
    collection is the sequence of its documents in insertion order; every
    stored document carries the identifier the store assigned to it. *)
Record database : Type := mkdb
  { collections : gmap string (list (string * dict));
    next_oid : N }.

(** A handler reads and writes the store ([None]: no store is configured)
    and returns or raises.  Writes made before an exception are kept. *)
Definition M (A : Type) : Type :=
  option database -> result A * option database.

#[global] Instance M_ret : MRet M := fun _ a db => (Ret a, db).
#[global] Instance M_bind : MBind M := fun _ _ k m db =>
  match m db with
  | (Ret a, db') => k a db'
  | (Raise e, db') => (Raise e, db')
  end.

Definition raise {A : Type} (e : exn) : M A := fun db => (Raise e, db).
Definition lift {A : Type} (r : result A) : M A := fun db => (r, db).

(** ** The document store *)

(** The 24 hexadecimal digits of the [n]-th identifier. *)
Definition hex_digit (n : N) : ascii :=
  match n with
  | 0%N => "0" | 1%N => "1" | 2%N => "2" | 3%N => "3" | 4%N => "4"
  | 5%N => "5" | 6%N => "6" | 7%N => "7" | 8%N => "8" | 9%N => "9"
  | 10%N => "a" | 11%N => "b" | 12%N => "c" | 13%N => "d" | 14%N => "e"
  | _ => "f"
  end%char.

Fixpoint hex_digits (k : nat) (n : N) (acc : string) : string :=
  match k with
  | O => acc
  | S k' => hex_digits k' (n / 16)%N (String (hex_digit (n mod 16)%N) acc)
  end.

Definition oid_hex (n : N) : string := hex_digits 24 n "".

(** The document a query returns for a stored pair. *)
Definition doc_of (stored : string * dict) : dict :=
  ("_id", VObjectId (fst stored)) :: snd stored.

(** [db[name]]: a collection that was never written to is empty. *)
Definition collection_docs (d : database) (name : string) : list dict :=
  map doc_of (default [] (collections d !! name)).

(** An equality filter [{k1: v1, ...}] selects the documents whose field
    [ki] equals [vi] for every [i] (an absent field reads as [None]); the
    handlers filter on text fields only. *)
Definition doc_matches (filter_dict doc : dict) : bool :=
  forallb (fun kv => value_eqb (get doc (fst kv)) (snd kv)) filter_dict.

(** [find_one]: [None] without a store, else the first matching document. *)
Definition find_one (collection : string) (filter_dict : dict)
  : M (option dict) :=
  fun db =>
    match db with
    | None => (Ret None, db)
    | Some d =>
        (Ret (List.find (doc_matches filter_dict) (collection_docs d collection)),
         db)
    end.

Definition without_id (data : dict) : dict :=
  List.filter (fun kv => negb (String.eqb (fst kv) "_id")) data.

(** Modelled from the spec: [create_document] of module [database], the
    adapter's [insert(collection, document) -> id].  The store assigns the
    next identifier, appends the document to the collection and returns the
    identifier as text; without a configured store the write fails. *)
Definition create_document (collection : string) (data : dict) : M string :=
  fun db =>
    match db with
    | None => (Raise StoreError, db)
    | Some d =>
        let oid := oid_hex (next_oid d) in
        let docs := default [] (collections d !! collection) in
        (Ret oid,
         Some {| collections :=
                   <[collection := docs ++ [(oid, without_id data)]]>
                     (collections d);
                 next_oid := N.succ (next_oid d) |})
    end.

(** Modelled from the spec: [get_documents] of module [database], the
    adapter's [find(collection, filter?) -> sequence of documents]: the
    documents of the collection that match the filter, in insertion order
    (none when no store is configured). *)
Definition get_documents (collection : string) (filter_dict : dict)
  : M (list dict) :=
  fun db =>
    match db with
    | None => (Ret [], db)
    | Some d =>
        (Ret (List.filter (doc_matches filter_dict)
                (collection_docs d collection)), db)
    end.

(** ** External collaborators *)

(** What the process takes from its environment and from the libraries it
    links: the [SECRET_KEY] variable, python-jose's [jwt.encode] and
    [jwt.decode] (the latter reads the clock), the bcrypt handler behind
    passlib's context (hashing draws a salt), and Python's rendering of the
    values whose text form is not spelled out below. *)
Class Runtime : Type := mkRuntime
  { env_SECRET_KEY : option string;
    jwt_encode : dict -> string -> string -> result string;
    jwt_decode : string -> string -> list string -> Z -> result dict;
    bcrypt_hash : string -> string -> result string;
    bcrypt_verify : string -> string -> result bool;
    repr_value : value -> string }.

(** *** fastapi.security *)

(** [get_authorization_scheme_param]. *)
Definition get_authorization_scheme_param (authorization : option string)
  : string * string :=
  match authorization with
  | None | Some EmptyString => ("", "")
  | Some v => partition_space v
  end.

Definition header_truthy (authorization : option string) : bool :=
  match authorization with
  | None | Some EmptyString => false
  | Some _ => true
  end.

(** [OAuth2PasswordBearer(tokenUrl=...)] with its default [auto_error]: the
    bearer token of the [Authorization] header, or 401 when the header is
    absent or carries another scheme. *)
Definition oauth2_scheme (authorization : option string) : result string :=
  let '(scheme, param) := get_authorization_scheme_param authorization in
  if negb (header_truthy authorization)
     || negb (String.eqb (lower scheme) "bearer")
  then Raise (HTTPException HTTP_401_UNAUTHORIZED "Not authenticated"
                [("WWW-Authenticate", "Bearer")])
  else Ret param.

(** *** passlib *)

Definition bcrypt_ident_values : list string :=
  ["$2$"; "$2a$"; "$2x$"; "$2y$"; "$2b$"].

(** The bcrypt handler recognises a hash by its identifier prefix. *)
Definition bcrypt_identify (h : string) : bool :=
  existsb (startswith h) bcrypt_ident_values.

Section Passlib.
Context {rt : Runtime}.

(** [CryptContext(schemes=["bcrypt"]).verify]: a missing hash never
    verifies; a string that no configured scheme identifies raises
    [UnknownHashError]; otherwise the bcrypt handler decides. *)
Definition pwd_context_verify (secret : string) (hash : value)
  : result bool :=
  match hash with
  | VNone => Ret false
  | VStr h =>
      if bcrypt_identify h then bcrypt_verify secret h
      else Raise UnknownHashError
  | _ => Raise ExpectedStringError
  end.

(** [CryptContext(schemes=["bcrypt"]).hash]. *)
Definition pwd_context_hash (secret salt : string) : result string :=
  bcrypt_hash secret salt.

End Passlib.

(** ** The application ([main.py]) *)

Section Main.
Context {rt : Runtime}.

(** Auth settings. *)
Definition SECRET_KEY : string := default "supersecretkeychange" env_SECRET_KEY.
Definition ALGORITHM : string := "HS256".
Definition ACCESS_TOKEN_EXPIRE_MINUTES : Z := 60 * 24.

(** [str(x)] for the values whose text form matters here. *)
Definition py_str (v : value) : string :=
  match v with
  | VNone => "None"
  | VBool true => "True"
  | VBool false => "False"
  | VInt n => NilZero.string_of_int (Z.to_int n)
  | VStr s => s
  | VObjectId hex => hex
  | _ => repr_value v
  end.

(** *** Utilities *)

Definition verify_password (plain_password : string) (hashed_password : value)
  : result bool :=
  pwd_context_verify plain_password hashed_password.

Definition get_password_hash (password salt : string) : result string :=
  pwd_context_hash password salt.

(** *** Auth dependencies *)

(** The dictionary [to_encode] that [create_access_token] hands to
    [jwt.encode]. *)
Definition access_token_claims (data : dict) (expires_delta : option Z)
    (now : Z) : result dict :=
  expire ← datetime_add now
             (timedelta_or expires_delta
                (timedelta_minutes ACCESS_TOKEN_EXPIRE_MINUTES));
  mret (update data [("exp", VDatetime expire)]).

Definition create_access_token (data : dict) (expires_delta : option Z)
    (now : Z) : result string :=
  to_encode ← access_token_claims data expires_delta now;
  jwt_encode to_encode SECRET_KEY ALGORITHM.

Definition credentials_exception : exn :=
  HTTPException HTTP_401_UNAUTHORIZED "Could not validate credentials"
    [("WWW-Authenticate", "Bearer")].

(** [get_current_user]: the [try] block decodes the token and reads its
    subject; [except JWTError] turns jose's errors into the credentials
    exception; the user is then fetched by e-mail. *)
Definition get_current_user (token : string) (now : Z) : M dict :=
  match jwt_decode token SECRET_KEY [ALGORITHM] now with
  | Raise e => if is_JWTError e then raise credentials_exception else raise e
  | Ret payload =>
      let email := get payload "sub" in
      match email with
      | VNone => raise credentials_exception
      | VStr _ =>
          user_doc ← find_one "user" [("email", email)];
          match user_doc with
          | Some doc =>
              if dict_truthy doc then mret doc
              else raise credentials_exception
          | None => raise credentials_exception
          end
      | _ => raise ValidationError
      end
  end.

(** *** Auth routes *)

Record SignUpBody : Type := mkSignUpBody
  { body_name : string;
    body_email : string;
    body_password : string;
    body_phone : option string }.

Definition signup (body : SignUpBody) (now : Z) (salt : string) : M dict :=
  existing ← find_one "user" [("email", VStr (body_email body))];
  if truthy existing
  then raise (HTTPException 400 "Email already registered" [])
  else
    hashed ← lift (get_password_hash (body_password body) salt);
    let user :=
      User.mk (body_name body) (body_email body) hashed (body_phone body)
        true "customer" in
    user_id ← create_document "user" (User.model_dump user);
    token ← lift (create_access_token [("sub", VStr (body_email body))]
                    None now);
    mret [("user_id", VStr user_id); ("access_token", VStr token);
          ("token_type", VStr "bearer")].

Record OAuth2PasswordRequestForm : Type := mkForm
  { username : string;
    password : string }.

Definition login (form_data : OAuth2PasswordRequestForm) (now : Z) : M dict :=
  user_doc ← find_one "user" [("email", VStr (username form_data))];
  match user_doc with
  | Some doc =>
      if dict_truthy doc then
        ok ← lift (verify_password (password form_data)
                     (get doc "password_hash"));
        if negb ok
        then raise (HTTPException 400 "Incorrect email or password" [])
        else
          match getitem doc "email" with
          | None => raise KeyError
          | Some email =>
              access_token ← lift (create_access_token [("sub", email)]
                                     None now);
              mret [("access_token", VStr access_token);
                    ("token_type", VStr "bearer")]
          end
      else raise (HTTPException 400 "Incorrect email or password" [])
  | None => raise (HTTPException 400 "Incorrect email or password" [])
  end.

(** *** Menu, bookings, orders *)

(** [d["_id"] = str(d["_id"])]. *)
Definition serialize_id (d : dict) : result dict :=
  match getitem d "_id" with
  | None => Raise KeyError
  | Some v => Ret (setitem d "_id" (VStr (py_str v)))
  end.

(** What [serialize_id] returns on a document that has an identifier. *)
Definition with_str_id (o : dict) : dict :=
  setitem o "_id" (VStr (py_str (get o "_id"))).

Definition add_menu_item (item : MenuItem.t) (user : dict) : M dict :=
  if ne_str (get user "role") "admin"
  then raise (HTTPException 403 "Admins only" [])
  else
    item_id ← create_document "menuitem" (MenuItem.model_dump item);
    mret [("id", VStr item_id)].

Definition create_booking (booking : Booking.t) : M dict :=
  booking_id ← create_document "booking" (Booking.model_dump booking);
  mret [("id", VStr booking_id); ("message", VStr "Booking received")].

Definition list_bookings (user : dict) : M (list dict) :=
  if ne_str (get user "role") "admin"
  then raise (HTTPException 403 "Admins only" [])
  else
    bookings ← get_documents "booking" [];
    lift (mapM serialize_id bookings).

Definition create_order (order : Order.t) (user : dict) : M dict :=
  let order_dict := Order.model_dump order in
  let order_dict :=
    if dict_truthy user
    then setitem order_dict "user_id" (VStr (py_str (get user "_id")))
    else order_dict in
  order_id ← create_document "order" order_dict;
  mret [("id", VStr order_id); ("message", VStr "Order placed")].

Definition list_orders (user : dict) : M (list dict) :=
  let filters := [("user_id", VStr (py_str (get user "_id")))] in
  orders ← get_documents "order" filters;
  lift (mapM serialize_id orders).

(** *** Requests

    FastAPI resolves [Depends(get_current_user)], and through it the bearer
    scheme, before it calls the handler. *)
Definition current_user (authorization : option string) (now : Z) : M dict :=
  token ← lift (oauth2_scheme authorization);
  get_current_user token now.

Definition post_menu (authorization : option string) (item : MenuItem.t)
    (now : Z) : M dict :=
  user ← current_user authorization now;
  add_menu_item item user.

Definition get_bookings (authorization : option string) (now : Z)
  : M (list dict) :=
  user ← current_user authorization now;
  list_bookings user.

Definition post_bookings (booking : Booking.t) : M dict :=
  create_booking booking.

Definition post_orders (authorization : option string) (order : Order.t)
    (now : Z) : M dict :=
  user ← current_user authorization now;
  create_order order user.

Definition get_orders (authorization : option string) (now : Z)
  : M (list dict) :=
  user ← current_user authorization now;
  list_orders user.

(** *** Menu listing and location *)

(** The dictionary [filters] that [list_menu] builds: [if category:] skips
    an absent and an empty category, [if bestseller is not None:] keeps
    [False]. *)
Definition menu_filters (category : option string) (bestseller : option bool)
  : dict :=
  let filters : dict := [] in
  let filters :=
    match category with
    | Some (String _ _ as c) => setitem filters "category" (VStr c)
    | _ => filters
    end in
  match bestseller with
  | Some b => setitem filters "is_bestseller" (VBool b)
  | None => filters
  end.

Definition list_menu (category : option string) (bestseller : option bool)
  : M (list dict) :=
  items ← get_documents "menuitem" (menu_filters category bestseller);
  lift (mapM serialize_id items).

Definition default_location : dict :=
  [ ("address", VStr "123 COVA Street, Food City");
    ("lat", VFloat 40.7128%float);
    ("lng", VFloat (-74.0060)%float);
    ("phone", VStr "+1 (555) 123-4567");
    ("opening_hours", VStr "Mon-Sun: 10:00 - 22:00") ].

Definition get_location : M dict :=
  docs ← get_documents "location" [];
  match docs with
  | d :: _ => lift (serialize_id d)
  | [] => mret default_location
  end.

End Main.

(** ** A runtime for running the handlers on examples

    A test double for the libraries: a token is the text [sub:] followed by
    the subject, [expired] stands for a token past its expiry and [nosub]
    for a well-signed token without subject; a password hash is the bcrypt
    prefix followed by the password. *)

Definition test_jwt_encode (claims : dict) (key alg : string) : result string :=
  match get claims "sub" with
  | VStr s => Ret ("sub:" +:+ s)
  | VNone => Ret "nosub"
  | _ => Raise JWTError
  end.

Definition test_jwt_decode (token key : string) (algorithms : list string)
    (now : Z) : result dict :=
  if String.eqb token "expired" then Raise ExpiredSignatureError
  else if String.eqb token "nosub" then Ret [("exp", VInt 4102444800)]
  else if startswith token "sub:"
  then Ret [("sub", VStr (String.substring 4 (String.length token - 4) token));
            ("exp", VInt 4102444800)]
  else Raise JWTError.

Definition test_runtime : Runtime :=
  {| env_SECRET_KEY := None;
     jwt_encode := test_jwt_encode;
     jwt_decode := test_jwt_decode;
     bcrypt_hash := fun secret salt => Ret ("$2b$12$" +:+ secret);
     bcrypt_verify := fun secret h => Ret (String.eqb h ("$2b$12$" +:+ secret));
     repr_value := fun _ => "" |}.

(** The exceptions of the role gate and of a refused login, and the range
    in which a datetime can be represented. *)
Definition forbidden : exn := HTTPException 403 "Admins only" [].

Definition invalid_credentials : exn :=
  HTTPException 400 "Incorrect email or password" [].

Definition in_datetime_range (t : Z) : Prop :=
  datetime_min <= t <= datetime_max.

Definition empty_db : database := {| collections := ∅; next_oid := 0 |}.

Definition sample_order : Order.t :=
  Order.mk (Some "someone-else") [OrderItem.mk "margherita" 2] 18.5%float
    "pending" None None.

Definition sample_item : MenuItem.t :=
  MenuItem.mk "Margherita" None 9.25%float "Mains" None false.

(** A store holding one account, given by its role and activity flag, and
    the document a query returns for that account. *)
Definition one_user (email hash role : string) (active : bool)
  : string * dict :=
  (oid_hex 0, User.model_dump (User.mk "Carol" email hash None active role)).

Definition one_user_db (email hash role : string) (active : bool) : database :=
  {| collections := {[ "user" := [one_user email hash role active] ]};
     next_oid := 1 |}.

Definition customer_db : database :=
  one_user_db "carol@x.com" "$2b$12$pw123" "customer" true.
Definition customer : dict :=
  doc_of (one_user "carol@x.com" "$2b$12$pw123" "customer" true).

Definition admin_db : database :=
  one_user_db "root@x.com" "$2b$12$pw123" "admin" true.
Definition admin : dict :=
  doc_of (one_user "root@x.com" "$2b$12$pw123" "admin" true).

Definition inactive_db : database :=
  one_user_db "carol@x.com" "$2b$12$pw123" "customer" false.
Definition inactive_carol : dict :=
  doc_of (one_user "carol@x.com" "$2b$12$pw123" "customer" false).

Definition alice : SignUpBody := mkSignUpBody "Alice" "a@x.com" "pw123" None.

(** A computation that leaves the store as it found it. *)
Definition reads {A : Type} (m : M A) : Prop :=
  forall db, snd (m db) = db.

(** A runtime whose hashing always fails, and one whose tokens may carry a
    role of their own: [adm:] followed by the subject decodes to claims that
    name the role "admin". *)
Definition failing_hash_runtime : Runtime :=
  {| env_SECRET_KEY := None;
     jwt_encode := test_jwt_encode;
     jwt_decode := test_jwt_decode;
     bcrypt_hash := fun _ _ => Raise PasswordValueError;
     bcrypt_verify := fun _ _ => Ret false;
     repr_value := fun _ => "" |}.

Definition role_claim_decode (token key : string) (algorithms : list string)
    (now : Z) : result dict :=
  if startswith token "adm:"
  then Ret [("sub", VStr (String.substring 4 (String.length token - 4) token));
            ("role", VStr "admin")]
  else test_jwt_decode token key algorithms now.

Definition role_claim_runtime : Runtime :=
  {| env_SECRET_KEY := Some "k";
     jwt_encode := test_jwt_encode;
     jwt_decode := role_claim_decode;
     bcrypt_hash := fun secret salt => Ret ("$2b$12$" +:+ secret);
     bcrypt_verify := fun secret h => Ret (String.eqb h ("$2b$12$" +:+ secret));
     repr_value := fun _ => "" |}.

(** A store whose only account has no [password_hash] field. *)
Definition passwordless_db : database :=
  {| collections :=
       {[ "user" := [(oid_hex 0, [("email", VStr "eve@x.com")])] ]};
     next_oid := 1 |}.

Definition passwordless : dict :=
  doc_of (oid_hex 0, [("email", VStr "eve@x.com")]).

Definition sample_booking : Booking.t :=
  Booking.mk "Dana" "+1 555 0100" None "2025-01-31" "19:30" 4 None.

(** * Properties *)

(** ** Basic facts about values, dictionaries and the store *)

Example oauth2_scheme_bearer :
  oauth2_scheme (Some "Bearer abc.def.ghi") = Ret "abc.def.ghi".
Proof. reflexivity. Qed.

Example oauth2_scheme_any_case : oauth2_scheme (Some "BEARER t") = Ret "t".
Proof. reflexivity. Qed.

Example oauth2_scheme_other_scheme :
  oauth2_scheme (Some "Basic dXNlcjpwdw==") =
    Raise (HTTPException 401 "Not authenticated"
             [("WWW-Authenticate", "Bearer")]).
Proof. reflexivity. Qed.

Example oid_hex_255 : oid_hex 255 = "0000000000000000000000ff".
Proof. reflexivity. Qed.

Example bcrypt_identify_examples :
  bcrypt_identify "$2b$12$abcdefghijklmnopqrstuv" = true /\
  bcrypt_identify "5f4dcc3b5aa765d61d8327deb882cf99" = false /\
  bcrypt_identify "" = false.
Proof. repeat split. Qed.

Lemma value_eqb_VStr (v : value) (s : string) :
  value_eqb v (VStr s) = true <-> v = VStr s.
Proof.
  destruct v; simpl; split; intros H; try discriminate.
  - apply String.eqb_eq in H. now subst.
  - injection H as ->. apply String.eqb_refl.
Qed.

Lemma get_setitem_same (d : dict) (k : string) (v : value) :
  get (setitem d k v) k = v.
Proof.
  induction d as [|[k' v'] d IH]; simpl.
  - now rewrite String.eqb_refl.
  - destruct (String.eqb k' k) eqn:E; simpl; rewrite E; auto.
Qed.

Lemma get_setitem_other (d : dict) (k k' : string) (v : value) :
  k <> k' -> get (setitem d k v) k' = get d k'.
Proof.
  intros Hne. induction d as [|[k0 v0] d IH]; simpl.
  - destruct (String.eqb k k') eqn:E; auto.
    apply String.eqb_eq in E. contradiction.
  - destruct (String.eqb k0 k) eqn:E; simpl.
    + apply String.eqb_eq in E. subst k0.
      destruct (String.eqb k k') eqn:E'; auto.
      apply String.eqb_eq in E'. contradiction.
    + now rewrite IH.
Qed.

Lemma get_without_id (d : dict) (k : string) :
  k <> "_id" -> get (without_id d) k = get d k.
Proof.
  intros Hne. induction d as [|[k0 v0] d IH]; simpl; auto.
  destruct (String.eqb k0 "_id") eqn:E; simpl.
  - apply String.eqb_eq in E. subst k0.
    destruct (String.eqb "_id" k) eqn:E'; auto.
    apply String.eqb_eq in E'. congruence.
  - now rewrite IH.
Qed.

Lemma doc_of_truthy (stored : string * dict) : dict_truthy (doc_of stored) = true.
Proof. reflexivity. Qed.

Lemma collection_docs_truthy (d : database) (c : string) (doc : dict) :
  In doc (collection_docs d c) -> dict_truthy doc = true.
Proof.
  unfold collection_docs. intros H. apply in_map_iff in H.
  destruct H as [stored [<- _]]. apply doc_of_truthy.
Qed.

Lemma find_matching_exists (flt : dict) (docs : list dict) (doc : dict) :
  In doc docs -> doc_matches flt doc = true ->
  exists doc', List.find (doc_matches flt) docs = Some doc'.
Proof.
  intros Hin Hm.
  destruct (List.find (doc_matches flt) docs) as [doc'|] eqn:E; eauto.
  pose proof (find_none _ _ E _ Hin) as Hn. congruence.
Qed.

Lemma find_matching_none (flt : dict) (docs : list dict) :
  (forall doc, In doc docs -> doc_matches flt doc = false) ->
  List.find (doc_matches flt) docs = None.
Proof.
  intros Hall.
  destruct (List.find (doc_matches flt) docs) as [doc'|] eqn:E; auto.
  apply find_some in E. destruct E as [Hin Hm].
  rewrite (Hall _ Hin) in Hm. discriminate.
Qed.

Lemma doc_matches_email (doc : dict) (e : string) :
  doc_matches [("email", VStr e)] doc = true <-> get doc "email" = VStr e.
Proof.
  unfold doc_matches. simpl. rewrite andb_true_r. apply value_eqb_VStr.
Qed.

(** The effect of one insertion: the identifier returned is the store's
    next one, the collection grows by exactly the new document, and no
    other collection changes. *)
Lemma create_document_inserts (c : string) (data : dict) (d : database) :
  exists d',
    create_document c data (Some d) = (Ret (oid_hex (next_oid d)), Some d') /\
    collection_docs d' c =
      collection_docs d c ++ [doc_of (oid_hex (next_oid d), without_id data)] /\
    (forall c', c' <> c -> collection_docs d' c' = collection_docs d c').
Proof.
  eexists. split; [reflexivity|]. split.
  - unfold collection_docs. simpl. rewrite lookup_insert_eq. simpl.
    now rewrite map_app.
  - intros c' Hne. unfold collection_docs. simpl.
    rewrite lookup_insert_ne; auto.
Qed.

Section StoreFacts.
Context {rt : Runtime}.

Lemma serialize_id_stored (d : database) (c : string) (o : dict) :
  In o (collection_docs d c) -> serialize_id o = Ret (with_str_id o).
Proof.
  unfold collection_docs. intros H. apply in_map_iff in H.
  destruct H as [stored [<- _]]. reflexivity.
Qed.

Lemma mapM_serialize_id (l : list dict) :
  (forall o, In o l -> serialize_id o = Ret (with_str_id o)) ->
  mapM serialize_id l = Ret (map with_str_id l).
Proof.
  induction l as [|o l IH]; intros H; simpl; [reflexivity|].
  rewrite (H o (or_introl eq_refl)). simpl.
  rewrite IH by (intros; apply H; now right). reflexivity.
Qed.

Lemma mapM_serialize_filter (d : database) (c : string) (p : dict -> bool) :
  mapM serialize_id (List.filter p (collection_docs d c)) =
  Ret (map with_str_id (List.filter p (collection_docs d c))).
Proof.
  apply mapM_serialize_id. intros o Ho. apply filter_In in Ho.
  destruct Ho as [Ho _]. eapply serialize_id_stored; eauto.
Qed.

(** Identity resolution only reads the store, and the record it returns
    is a document of the user collection, which is never empty. *)
Lemma get_current_user_reads (token : string) (now : Z) (db : option database) :
  snd (get_current_user token now db) = db.
Proof.
  unfold get_current_user.
  destruct (jwt_decode token SECRET_KEY [ALGORITHM] now) as [payload|e].
  - destruct (get payload "sub"); try reflexivity.
    unfold mbind, M_bind, find_one. destruct db as [d|]; simpl; auto.
    destruct (List.find _ _) as [doc|]; simpl; auto.
    destruct (dict_truthy doc); reflexivity.
  - destruct (is_JWTError e); reflexivity.
Qed.

Lemma current_user_reads (authorization : option string) (now : Z)
    (db : option database) :
  snd (current_user authorization now db) = db.
Proof.
  unfold current_user, mbind, M_bind, lift.
  destruct (oauth2_scheme authorization) as [token|e]; simpl; auto.
  pose proof (get_current_user_reads token now db) as H.
  destruct (get_current_user token now db) as [[u|e] db']; simpl in *; now subst.
Qed.

Lemma get_current_user_returns (token : string) (now : Z)
    (db : option database) (u : dict) :
  fst (get_current_user token now db) = Ret u ->
  exists d, db = Some d /\ In u (collection_docs d "user").
Proof.
  unfold get_current_user.
  destruct (jwt_decode token SECRET_KEY [ALGORITHM] now) as [payload|e].
  - destruct (get payload "sub") eqn:Es; try discriminate.
    unfold mbind, M_bind, find_one. destruct db as [d|]; simpl; try discriminate.
    destruct (List.find _ _) as [doc|] eqn:Ef; simpl; try discriminate.
    destruct (dict_truthy doc); simpl; try discriminate.
    intros [= <-]. exists d. split; auto.
    apply find_some in Ef. tauto.
  - destruct (is_JWTError e); discriminate.
Qed.

Lemma current_user_returns (authorization : option string) (now : Z)
    (db : option database) (u : dict) :
  fst (current_user authorization now db) = Ret u ->
  current_user authorization now db = (Ret u, db) /\
  exists d, db = Some d /\ In u (collection_docs d "user").
Proof.
  intros H. split.
  - pose proof (current_user_reads authorization now db) as Hs.
    destruct (current_user authorization now db) as [r db']; simpl in *.
    now subst.
  - revert H. unfold current_user, mbind, M_bind, lift.
    destruct (oauth2_scheme authorization) as [token|e]; simpl; try discriminate.
    intros H. apply (get_current_user_returns token now db u).
    destruct (get_current_user token now db) as [[u'|e] db']; simpl in *;
      congruence.
Qed.

End StoreFacts.

(** ** Orders and the bearer credential *)

(** The [if user:] test of [create_order] never fails: the record that
    identity resolution hands over is never empty. *)
Lemma resolved_user_truthy {rt : Runtime} (authorization : option string)
    (now : Z) (db : option database) (u : dict) :
  fst (current_user authorization now db) = Ret u -> dict_truthy u = true.
Proof.
  intros H. apply current_user_returns in H.
  destruct H as [_ [d [_ Hin]]]. eapply collection_docs_truthy; eauto.
Qed.

(** Bookings, by contrast, are taken from anyone. *)
Lemma anonymous_booking_accepted {rt : Runtime} (booking : Booking.t)
    (d : database) :
  exists d',
    post_bookings booking (Some d) =
      (Ret [("id", VStr (oid_hex (next_oid d)));
            ("message", VStr "Booking received")], Some d').
Proof.
  destruct (create_document_inserts "booking" (Booking.model_dump booking) d)
    as [d' [E _]].
  exists d'. unfold post_bookings, create_booking, mbind, M_bind.
  now rewrite E.
Qed.

(** C1: an order placed without a bearer credential is not accepted.  With
    no [Authorization] header the bearer scheme answers 401 "Not
    authenticated" before [create_order] runs, and nothing is stored. *)
Theorem anonymous_order_rejected (rt : Runtime) (order : Order.t) (now : Z)
    (db : option database) :
  post_orders None order now db =
    (Raise (HTTPException 401 "Not authenticated"
              [("WWW-Authenticate", "Bearer")]), db).
Proof. reflexivity. Qed.

(** ** Password verification *)

(** C2, as it stands, fails: on a string that is not a bcrypt hash the
    verification raises. *)
Lemma verify_password_raises_on_malformed :
  @verify_password test_runtime "pw123" (VStr "not-a-hash") =
    Raise UnknownHashError.
Proof. reflexivity. Qed.

(** C2 (amended): verification answers false without raising when the stored
    hash is absent; on a string that no bcrypt identifier prefixes it raises
    [UnknownHashError], and [login] lets that exception through. *)
Theorem verify_password_unidentified (rt : Runtime) (plain h : string) :
  bcrypt_identify h = false ->
  verify_password plain VNone = Ret false /\
  verify_password plain (VStr h) = Raise UnknownHashError /\
  forall (form_data : OAuth2PasswordRequestForm) (now : Z) (d : database)
         (doc : dict),
    List.find (doc_matches [("email", VStr (username form_data))])
      (collection_docs d "user") = Some doc ->
    get doc "password_hash" = VStr h ->
    login form_data now (Some d) = (Raise UnknownHashError, Some d).
Proof.
  intros Hid. unfold verify_password, pwd_context_verify.
  rewrite Hid. repeat split.
  intros form_data now d doc Hfind Hhash.
  unfold login, mbind, M_bind, find_one. rewrite Hfind.
  apply find_some in Hfind. destruct Hfind as [Hin _].
  rewrite (collection_docs_truthy _ _ _ Hin).
  unfold lift, verify_password, pwd_context_verify.
  rewrite Hhash, Hid. reflexivity.
Qed.

Lemma verify_password_unidentified_witness :
  bcrypt_identify "not-a-hash" = false /\
  @verify_password test_runtime "pw123" (VStr "not-a-hash") =
    Raise UnknownHashError /\
  @login test_runtime (mkForm "carol@x.com" "pw123") 0
    (Some (one_user_db "carol@x.com" "not-a-hash" "customer" true)) =
    (Raise UnknownHashError,
     Some (one_user_db "carol@x.com" "not-a-hash" "customer" true)).
Proof.
  split; [reflexivity|].
  destruct (verify_password_unidentified test_runtime "pw123" "not-a-hash"
              eq_refl) as [_ [H2 H3]].
  split; [exact H2|].
  eapply H3; reflexivity.
Defined.

(** ** Identity resolution *)

(** C3, as it stands, fails: a valid token whose subject is a stored record
    with [is_active = false] resolves to that record. *)
Lemma inactive_user_is_resolved :
  @get_current_user test_runtime "sub:carol@x.com" 0 (Some inactive_db) =
    (Ret inactive_carol, Some inactive_db) /\
  get inactive_carol "email" = VStr "carol@x.com" /\
  get inactive_carol "is_active" = VBool false.
Proof. repeat split. Qed.

(** C3 (amended): once the token decodes to a subject, resolution fails with
    the credentials exception when no user record has that e-mail, and
    returns the first record that has it otherwise, whatever its
    [is_active] flag. *)
Theorem get_current_user_by_subject (rt : Runtime) (token email : string)
    (now : Z) (payload : dict) (d : database) :
  jwt_decode token SECRET_KEY [ALGORITHM] now = Ret payload ->
  get payload "sub" = VStr email ->
  ((forall doc, In doc (collection_docs d "user") ->
                get doc "email" <> VStr email) ->
   get_current_user token now (Some d) =
     (Raise credentials_exception, Some d)) /\
  (forall doc,
     List.find (doc_matches [("email", VStr email)])
       (collection_docs d "user") = Some doc ->
     get_current_user token now (Some d) = (Ret doc, Some d)).
Proof.
  intros Hdec Hsub. unfold get_current_user. rewrite Hdec, Hsub.
  unfold mbind, M_bind, find_one. split.
  - intros Hnone. rewrite find_matching_none; [reflexivity|].
    intros doc Hin. apply not_true_is_false. intros Hm.
    apply doc_matches_email in Hm. exact (Hnone doc Hin Hm).
  - intros doc Hfind. rewrite Hfind.
    apply find_some in Hfind. destruct Hfind as [Hin _].
    now rewrite (collection_docs_truthy _ _ _ Hin).
Qed.

Lemma get_current_user_by_subject_witness :
  @get_current_user test_runtime "sub:dave@x.com" 0 (Some inactive_db) =
    (Raise credentials_exception, Some inactive_db) /\
  @get_current_user test_runtime "sub:carol@x.com" 0 (Some inactive_db) =
    (Ret inactive_carol, Some inactive_db).
Proof.
  split.
  - refine (proj1 (get_current_user_by_subject test_runtime "sub:dave@x.com"
                     "dave@x.com" 0 _ inactive_db eq_refl eq_refl) _).
    intros doc [<-|[]]. discriminate.
  - refine (proj2 (get_current_user_by_subject test_runtime
                     "sub:carol@x.com" "carol@x.com" 0 _ inactive_db
                     eq_refl eq_refl) _ _).
    reflexivity.
Defined.

(** ** The role gate *)

(** C4: for the record of an authenticated caller, creating a menu item and
    listing the bookings are refused with 403 when the role is "customer"
    and go through when it is "admin"; the refusal is exactly the failure of
    the equality test of the role against "admin". *)
Theorem role_gate (rt : Runtime) (authorization : option string) (now : Z)
    (db : option database) (u : dict) (item : MenuItem.t) :
  fst (current_user authorization now db) = Ret u ->
  (get u "role" = VStr "customer" ->
   post_menu authorization item now db = (Raise forbidden, db) /\
   get_bookings authorization now db = (Raise forbidden, db)) /\
  (get u "role" = VStr "admin" ->
   (exists id db',
      post_menu authorization item now db = (Ret [("id", VStr id)], db')) /\
   (exists bookings,
      get_bookings authorization now db = (Ret bookings, db))) /\
  (fst (post_menu authorization item now db) = Raise forbidden <->
   get u "role" <> VStr "admin") /\
  (fst (get_bookings authorization now db) = Raise forbidden <->
   get u "role" <> VStr "admin").
Proof.
  intros Hu. apply current_user_returns in Hu.
  destruct Hu as [Hu [d [-> _]]].
  unfold post_menu, get_bookings, mbind, M_bind. rewrite Hu.
  unfold add_menu_item, list_bookings.
  destruct (create_document_inserts "menuitem" (MenuItem.model_dump item) d)
    as [d' [Ecd _]].
  assert (Hgate : get u "role" <> VStr "admin" ->
                  ne_str (get u "role") "admin" = true).
  { intros Hne. destruct (get u "role") as [| | | |s| | | |]; try reflexivity.
    simpl. destruct (String.eqb s "admin") eqn:Es; [|reflexivity].
    apply String.eqb_eq in Es. subst. contradiction. }
  assert (Hadm : ne_str (VStr "admin") "admin" = false) by reflexivity.
  split; [|split; [|split]].
  - intros Hc. rewrite Hgate by (rewrite Hc; discriminate). now split.
  - intros Ha. rewrite Ha, Hadm. split.
    + unfold mbind, M_bind. rewrite Ecd. eauto.
    + unfold mbind, M_bind, get_documents, lift.
      rewrite mapM_serialize_filter. eauto.
  - split.
    + intros H Ha. rewrite Ha, Hadm in H.
      unfold mbind, M_bind in H. rewrite Ecd in H. discriminate.
    + intros Hne. now rewrite Hgate.
  - split.
    + intros H Ha. rewrite Ha, Hadm in H.
      unfold mbind, M_bind, get_documents, lift in H.
      rewrite mapM_serialize_filter in H. discriminate.
    + intros Hne. now rewrite Hgate.
Qed.

Lemma role_gate_witness :
  @post_menu test_runtime (Some "Bearer sub:carol@x.com") sample_item 0
    (Some customer_db) = (Raise forbidden, Some customer_db) /\
  exists id db',
    @post_menu test_runtime (Some "bearer sub:root@x.com") sample_item 0
      (Some admin_db) = (Ret [("id", VStr id)], db').
Proof.
  split.
  - exact (proj1 (proj1 (role_gate test_runtime (Some "Bearer sub:carol@x.com")
                           0 (Some customer_db) customer sample_item eq_refl)
                    eq_refl)).
  - exact (proj1 (proj1 (proj2 (role_gate test_runtime
                                  (Some "bearer sub:root@x.com") 0
                                  (Some admin_db) admin sample_item eq_refl))
                    eq_refl)).
Defined.

(** ** Signup *)

(** C5: a signup whose e-mail is that of an existing user record fails with
    400 "Email already registered" and leaves the store as it was; with a
    fresh e-mail (and the hash and the token produced) it succeeds and the
    user collection gains exactly one record, the other collections being
    untouched. *)
Theorem signup_duplicate_or_fresh (rt : Runtime) (body : SignUpBody) (now : Z)
    (salt : string) (d : database) :
  ((exists doc, In doc (collection_docs d "user") /\
                get doc "email" = VStr (body_email body)) ->
   signup body now salt (Some d) =
     (Raise (HTTPException 400 "Email already registered" []), Some d)) /\
  ((forall doc, In doc (collection_docs d "user") ->
                get doc "email" <> VStr (body_email body)) ->
   forall hashed token,
     get_password_hash (body_password body) salt = Ret hashed ->
     create_access_token [("sub", VStr (body_email body))] None now =
       Ret token ->
     exists d',
       signup body now salt (Some d) =
         (Ret [("user_id", VStr (oid_hex (next_oid d)));
               ("access_token", VStr token);
               ("token_type", VStr "bearer")], Some d') /\
       collection_docs d' "user" =
         collection_docs d "user" ++
           [doc_of (oid_hex (next_oid d),
                    User.model_dump
                      (User.mk (body_name body) (body_email body) hashed
                         (body_phone body) true "customer"))] /\
       forall c, c <> "user" -> collection_docs d' c = collection_docs d c).
Proof.
  split.
  - intros [doc [Hin Hemail]].
    destruct (find_matching_exists [("email", VStr (body_email body))]
                (collection_docs d "user") doc Hin) as [doc' Hfind].
    { now apply doc_matches_email. }
    unfold signup, mbind, M_bind, find_one. rewrite Hfind.
    apply find_some in Hfind. destruct Hfind as [Hin' _].
    unfold truthy. now rewrite (collection_docs_truthy _ _ _ Hin').
  - intros Hfresh hashed token Hhash Htok.
    set (user := User.mk (body_name body) (body_email body) hashed
                   (body_phone body) true "customer").
    destruct (create_document_inserts "user" (User.model_dump user) d)
      as [d' [Ecd [Hcoll Hother]]].
    exists d'. split; [|split; [exact Hcoll | exact Hother]].
    unfold signup, mbind, M_bind, find_one.
    rewrite find_matching_none.
    + unfold truthy, lift. rewrite Hhash. fold user. rewrite Ecd, Htok.
      reflexivity.
    + intros doc Hin. apply not_true_is_false. intros Hm.
      apply doc_matches_email in Hm. exact (Hfresh doc Hin Hm).
Qed.

Lemma signup_duplicate_or_fresh_witness :
  (exists d',
     @signup test_runtime alice 0 "salt" (Some empty_db) =
       (Ret [("user_id", VStr "000000000000000000000000");
             ("access_token", VStr "sub:a@x.com");
             ("token_type", VStr "bearer")], Some d') /\
     @signup test_runtime alice 1 "pepper" (Some d') =
       (Raise (HTTPException 400 "Email already registered" []), Some d')).
Proof.
  destruct (proj2 (signup_duplicate_or_fresh test_runtime alice 0 "salt"
                     empty_db)
              (fun doc (H : In doc []) => match H with end)
              "$2b$12$pw123" "sub:a@x.com" eq_refl eq_refl)
    as [d' [Hs [Hc _]]].
  exists d'. split; [exact Hs|].
  apply (proj1 (signup_duplicate_or_fresh test_runtime alice 1 "pepper" d')).
  eexists. rewrite Hc. split; [left; reflexivity|reflexivity].
Defined.

(** ** Token verification *)




(** ** Login *)



(** ** Token issuance *)

Lemma datetime_add_in_range (t d : Z) :
  in_datetime_range (t + d) -> datetime_add t d = Ret (t + d).
Proof.
  unfold in_datetime_range, datetime_add. intros [Hlo Hhi].
  apply Z.leb_le in Hlo. apply Z.leb_le in Hhi. cbv zeta.
  now rewrite Hlo, Hhi.
Qed.

Lemma get_update_exp (data : dict) (expire : value) :
  get (update data [("exp", expire)]) "exp" = expire /\
  get (update data [("exp", expire)]) "sub" = get data "sub".
Proof.
  unfold update. simpl. split.
  - apply get_setitem_same.
  - apply get_setitem_other. discriminate.
Qed.

(** With no time-to-live the claims expire 1440 minutes, that is 24 hours,
    after the call; the subject is kept. *)
Lemma access_token_claims_default (data : dict) (now : Z) :
  in_datetime_range (now + 86400 * 1000000) ->
  exists claims,
    access_token_claims data None now = Ret claims /\
    get claims "exp" = VDatetime (now + 86400 * 1000000) /\
    get claims "sub" = get data "sub".
Proof.
  intros Hr. unfold access_token_claims. simpl timedelta_or.
  change (timedelta_minutes ACCESS_TOKEN_EXPIRE_MINUTES)
    with (86400 * 1000000).
  rewrite (datetime_add_in_range _ _ Hr). eexists. split; [reflexivity|].
  apply get_update_exp.
Qed.

(** With a time-to-live other than zero the claims expire that long after
    the call. *)
Lemma access_token_claims_ttl (data : dict) (ttl now : Z) :
  ttl <> 0 -> in_datetime_range (now + ttl) ->
  exists claims,
    access_token_claims data (Some ttl) now = Ret claims /\
    get claims "exp" = VDatetime (now + ttl) /\
    get claims "sub" = get data "sub".
Proof.
  intros Hnz Hr. unfold access_token_claims, timedelta_or.
  apply Z.eqb_neq in Hnz. rewrite Hnz.
  rewrite (datetime_add_in_range _ _ Hr). eexists. split; [reflexivity|].
  apply get_update_exp.
Qed.

(** C9: a token asked for with a time-to-live of zero does not expire at
    the time of the call: the zero duration is falsy, so the expiry is set
    24 hours later, exactly as when no time-to-live is given. *)
Theorem zero_ttl_gets_default_expiry (data : dict) (now : Z) :
  access_token_claims data (Some 0) now = access_token_claims data None now /\
  access_token_claims [("sub", VStr "a@x.com")] (Some 0) 1700000000000000 =
    Ret [("sub", VStr "a@x.com"); ("exp", VDatetime 1700086400000000)].
Proof. split; reflexivity. Qed.

(** ** Orders *)

(** C10: an order placed by an authenticated caller is stored with
    [user_id] equal to the text of the caller's [_id], whatever [user_id]
    the request carried; and the caller's listing is made of exactly the
    stored orders whose [user_id] is that text, in order, each with its
    [_id] rendered as text. *)
Theorem order_user_id_is_caller (rt : Runtime) (authorization : option string)
    (order : Order.t) (now : Z) (d : database) (u : dict) :
  fst (current_user authorization now (Some d)) = Ret u ->
  (exists d' stored,
     post_orders authorization order now (Some d) =
       (Ret [("id", VStr (oid_hex (next_oid d)));
             ("message", VStr "Order placed")], Some d') /\
     collection_docs d' "order" = collection_docs d "order" ++ [stored] /\
     get stored "user_id" = VStr (py_str (get u "_id"))) /\
  get_orders authorization now (Some d) =
    (Ret (map with_str_id
            (List.filter
               (fun o => value_eqb (get o "user_id")
                           (VStr (py_str (get u "_id"))))
               (collection_docs d "order"))), Some d).
Proof.
  intros Hu. apply current_user_returns in Hu.
  destruct Hu as [Hu [d0 [[= <-] Hin]]].
  pose proof (collection_docs_truthy _ _ _ Hin) as Htruthy.
  split.
  - set (order_dict := setitem (Order.model_dump order) "user_id"
                         (VStr (py_str (get u "_id")))).
    destruct (create_document_inserts "order" order_dict d)
      as [d' [Ecd [Hcoll _]]].
    exists d'. eexists. split; [|split; [exact Hcoll|]].
    + unfold post_orders, mbind, M_bind. rewrite Hu.
      unfold create_order. rewrite Htruthy. fold order_dict.
      unfold mbind, M_bind. rewrite Ecd. reflexivity.
    + unfold doc_of. cbn [get fst snd]. simpl String.eqb.
      rewrite get_without_id by discriminate.
      apply get_setitem_same.
  - unfold get_orders, mbind, M_bind. rewrite Hu.
    unfold list_orders, mbind, M_bind, get_documents, lift.
    rewrite mapM_serialize_filter. do 3 f_equal.
    apply filter_ext. intros o. unfold doc_matches. simpl.
    apply andb_true_r.
Qed.

Lemma order_user_id_is_caller_witness :
  exists d' stored,
    @post_orders test_runtime (Some "Bearer sub:carol@x.com") sample_order 0
      (Some customer_db) =
      (Ret [("id", VStr "000000000000000000000001");
            ("message", VStr "Order placed")], Some d') /\
    get stored "user_id" = VStr "000000000000000000000000" /\
    @get_orders test_runtime (Some "Bearer sub:carol@x.com") 1 (Some d') =
      (Ret [@with_str_id test_runtime stored], Some d').
Proof.
  destruct (order_user_id_is_caller test_runtime
              (Some "Bearer sub:carol@x.com") sample_order 0 customer_db
              customer eq_refl) as [[d' [stored [Hpost [Hcoll Hid]]]] _].
  exists d', stored. split; [exact Hpost|]. split; [exact Hid|].
  assert (Hu : fst (@current_user test_runtime
                      (Some "Bearer sub:carol@x.com") 1 (Some d')) =
               Ret customer).
  { injection Hpost as <-. reflexivity. }
  rewrite (proj2 (order_user_id_is_caller test_runtime
                    (Some "Bearer sub:carol@x.com") sample_order 1 d'
                    customer Hu)).
  rewrite Hcoll.
  change (collection_docs customer_db "order") with (@nil dict).
  cbn [app List.filter]. rewrite Hid. reflexivity.
Defined.

(** * Further properties of the handlers *)

(** ** Helpers *)

Lemma getitem_of_get (d : dict) (k : string) (v : value) :
  get d k = v -> v <> VNone -> getitem d k = Some v.
Proof.
  induction d as [|[k' v'] d IH]; simpl.
  - intros <- H. contradiction.
  - destruct (String.eqb k' k); [now intros ->|exact IH].
Qed.

Lemma get_of_getitem (d : dict) (k : string) (v : value) :
  getitem d k = Some v -> get d k = v.
Proof.
  induction d as [|[k' v'] d IH]; simpl; [discriminate|].
  destruct (String.eqb k' k); [now intros [= ->]|exact IH].
Qed.

Lemma setitem_length_present (d : dict) (k : string) (v w : value) :
  getitem d k = Some w -> length (setitem d k v) = length d.
Proof.
  induction d as [|[k' v'] d IH]; simpl; [discriminate|].
  destruct (String.eqb k' k); simpl; [reflexivity|].
  intros H. now rewrite IH.
Qed.

Lemma getitem_setitem_same (d : dict) (k : string) (v : value) :
  getitem (setitem d k v) k = Some v.
Proof.
  induction d as [|[k' v'] d IH]; simpl.
  - now rewrite String.eqb_refl.
  - destruct (String.eqb k' k) eqn:E; simpl; rewrite E; auto.
Qed.

Lemma setitem_setitem_same (d : dict) (k : string) (v w : value) :
  setitem (setitem d k v) k w = setitem d k w.
Proof.
  induction d as [|[k' v'] d IH]; simpl.
  - now rewrite String.eqb_refl.
  - destruct (String.eqb k' k) eqn:E; simpl; rewrite E; [reflexivity|].
    now rewrite IH.
Qed.

Lemma filter_all (A : Type) (p : A -> bool) (l : list A) :
  (forall x, In x l -> p x = true) -> List.filter p l = l.
Proof.
  induction l as [|x l IH]; intros H; simpl; [reflexivity|].
  rewrite (H x (or_introl eq_refl)). f_equal. apply IH.
  intros y Hy. apply H. now right.
Qed.

Lemma find_app_none (A : Type) (p : A -> bool) (l1 l2 : list A) :
  List.find p l1 = None -> List.find p (l1 ++ l2) = List.find p l2.
Proof.
  induction l1 as [|x l1 IH]; simpl; [reflexivity|].
  destruct (p x); [discriminate|exact IH].
Qed.

Lemma reads_bind {A B : Type} (m : M A) (k : A -> M B) :
  reads m -> (forall a, reads (k a)) -> reads (mbind k m).
Proof.
  intros Hm Hk db. unfold mbind, M_bind.
  pose proof (Hm db) as H. destruct (m db) as [[a|e] db']; simpl in *; subst.
  - apply Hk.
  - reflexivity.
Qed.

Lemma reads_lift {A : Type} (r : result A) : reads (lift r).
Proof. intros db. reflexivity. Qed.

Lemma reads_raise {A : Type} (e : exn) : reads (@raise A e).
Proof. intros db. reflexivity. Qed.

Lemma reads_mret {A : Type} (a : A) : reads (mret a : M A).
Proof. intros db. reflexivity. Qed.

Lemma reads_find_one (c : string) (flt : dict) : reads (find_one c flt).
Proof. intros [d|]; reflexivity. Qed.

Lemma reads_get_documents (c : string) (flt : dict) :
  reads (get_documents c flt).
Proof. intros [d|]; reflexivity. Qed.

(** ** Identity resolution *)

(** X1: a record returned by [get_current_user] is a stored user record
    whose e-mail is the subject the token decoded to. *)
Theorem resolved_user_matches_subject (rt : Runtime) (token : string)
    (now : Z) (db : option database) (u : dict) :
  fst (get_current_user token now db) = Ret u ->
  exists payload e d,
    jwt_decode token SECRET_KEY [ALGORITHM] now = Ret payload /\
    get payload "sub" = VStr e /\
    db = Some d /\
    In u (collection_docs d "user") /\
    get u "email" = VStr e.
Proof.
  unfold get_current_user.
  destruct (jwt_decode token SECRET_KEY [ALGORITHM] now) as [payload|e].
  - destruct (get payload "sub") as [| | | |s| | | |] eqn:Es; try discriminate.
    unfold mbind, M_bind, find_one. destruct db as [d|]; simpl; try discriminate.
    destruct (List.find _ _) as [doc|] eqn:Ef; simpl; try discriminate.
    destruct (dict_truthy doc); simpl; try discriminate.
    intros [= <-]. exists payload, s, d. apply find_some in Ef.
    destruct Ef as [Hin Hm]. apply doc_matches_email in Hm. auto.
  - destruct (is_JWTError e); discriminate.
Qed.

Lemma resolved_user_matches_subject_witness :
  exists payload e d,
    test_jwt_decode "sub:carol@x.com" "supersecretkeychange" ["HS256"] 0 =
      Ret payload /\
    get payload "sub" = VStr e /\
    Some customer_db = Some d /\
    In customer (collection_docs d "user") /\
    get customer "email" = VStr e.
Proof.
  exact (resolved_user_matches_subject test_runtime "sub:carol@x.com" 0
           (Some customer_db) customer eq_refl).
Defined.

(** X2: resolution depends on the token only through its subject: two
    tokens that decode to the same subject resolve alike, whatever other
    claims (a role, say) their payloads carry. *)
Theorem resolution_depends_on_subject_only (rt : Runtime)
    (token1 token2 : string) (now1 now2 : Z) (payload1 payload2 : dict)
    (db : option database) :
  jwt_decode token1 SECRET_KEY [ALGORITHM] now1 = Ret payload1 ->
  jwt_decode token2 SECRET_KEY [ALGORITHM] now2 = Ret payload2 ->
  get payload1 "sub" = get payload2 "sub" ->
  get_current_user token1 now1 db = get_current_user token2 now2 db.
Proof.
  intros H1 H2 Hs. unfold get_current_user. now rewrite H1, H2, Hs.
Qed.

Lemma resolution_depends_on_subject_only_witness :
  @get_current_user role_claim_runtime "adm:carol@x.com" 0 (Some customer_db) =
  @get_current_user role_claim_runtime "sub:carol@x.com" 9 (Some customer_db)
  /\
  @post_menu role_claim_runtime (Some "Bearer adm:carol@x.com") sample_item 0
    (Some customer_db) = (Raise forbidden, Some customer_db).
Proof.
  split.
  - exact (resolution_depends_on_subject_only role_claim_runtime
             "adm:carol@x.com" "sub:carol@x.com" 0 9 _ _ (Some customer_db)
             eq_refl eq_refl eq_refl).
  - reflexivity.
Defined.

(** X3: when no store is configured, [find_one] finds nothing, so identity
    resolution never returns a user and every login is refused with the
    invalid-credentials exception, whatever the token or the credentials. *)
Theorem no_store_rejects (rt : Runtime) (token : string)
    (form_data : OAuth2PasswordRequestForm) (now : Z) :
  (exists e, get_current_user token now None = (Raise e, None)) /\
  (forall payload e,
     jwt_decode token SECRET_KEY [ALGORITHM] now = Ret payload ->
     get payload "sub" = VStr e ->
     get_current_user token now None = (Raise credentials_exception, None)) /\
  login form_data now None = (Raise invalid_credentials, None).
Proof.
  split; [|split; [|reflexivity]].
  - unfold get_current_user.
    destruct (jwt_decode token SECRET_KEY [ALGORITHM] now) as [payload|e].
    + destruct (get payload "sub"); eexists; reflexivity.
    + destruct (is_JWTError e); eexists; reflexivity.
  - intros payload e Hd Hs. unfold get_current_user. rewrite Hd, Hs.
    reflexivity.
Qed.

(** ** Handlers that only read *)

Lemma reads_get_current_user {rt : Runtime} (token : string) (now : Z) :
  reads (get_current_user token now).
Proof.
  unfold get_current_user.
  destruct (jwt_decode token SECRET_KEY [ALGORITHM] now) as [payload|e].
  - destruct (get payload "sub"); try apply reads_raise.
    apply reads_bind; [apply reads_find_one|].
    intros [doc|]; [|apply reads_raise].
    destruct (dict_truthy doc); [apply reads_mret|apply reads_raise].
  - destruct (is_JWTError e); apply reads_raise.
Qed.

Lemma reads_current_user {rt : Runtime} (authorization : option string)
    (now : Z) :
  reads (current_user authorization now).
Proof.
  unfold current_user. apply reads_bind; [apply reads_lift|].
  intros token. apply reads_get_current_user.
Qed.

Lemma reads_login {rt : Runtime} (form_data : OAuth2PasswordRequestForm)
    (now : Z) :
  reads (login form_data now).
Proof.
  unfold login. apply reads_bind; [apply reads_find_one|].
  intros [doc|]; [|apply reads_raise].
  destruct (dict_truthy doc); [|apply reads_raise].
  apply reads_bind; [apply reads_lift|].
  intros ok. destruct ok; simpl; [|apply reads_raise].
  destruct (getitem doc "email"); [|apply reads_raise].
  apply reads_bind; [apply reads_lift|]. intros tok. apply reads_mret.
Qed.

Lemma reads_list_orders {rt : Runtime} (user : dict) :
  reads (list_orders user).
Proof.
  unfold list_orders. apply reads_bind; [apply reads_get_documents|].
  intros orders. apply reads_lift.
Qed.

Lemma reads_list_bookings {rt : Runtime} (user : dict) :
  reads (list_bookings user).
Proof.
  unfold list_bookings. destruct (ne_str _ _); [apply reads_raise|].
  apply reads_bind; [apply reads_get_documents|].
  intros bookings. apply reads_lift.
Qed.

(** X6: logging in, resolving a token, and the listings of orders,
    bookings, menu and location never write to the store, whether they
    return or raise. *)
Theorem read_handlers_keep_store (rt : Runtime) (db : option database)
    (authorization : option string) (now : Z) :
  (forall form_data, snd (login form_data now db) = db) /\
  snd (current_user authorization now db) = db /\
  snd (get_orders authorization now db) = db /\
  snd (get_bookings authorization now db) = db /\
  (forall category bestseller, snd (list_menu category bestseller db) = db) /\
  snd (get_location db) = db.
Proof.
  repeat split.
  - intros form_data. apply reads_login.
  - apply reads_current_user.
  - apply (reads_bind (current_user authorization now) list_orders).
    + apply reads_current_user.
    + apply reads_list_orders.
  - apply (reads_bind (current_user authorization now) list_bookings).
    + apply reads_current_user.
    + apply reads_list_bookings.
  - intros category bestseller. unfold list_menu.
    apply reads_bind; [apply reads_get_documents|].
    intros items. apply reads_lift.
  - unfold get_location. apply reads_bind; [apply reads_get_documents|].
    intros [|d docs]; [apply reads_mret|apply reads_lift].
Qed.

(** ** Login *)

Lemma login_success_run (rt : Runtime) (form_data : OAuth2PasswordRequestForm)
    (now : Z) (d : database) (doc : dict) (token : string) :
  List.find (doc_matches [("email", VStr (username form_data))])
    (collection_docs d "user") = Some doc ->
  verify_password (password form_data) (get doc "password_hash") = Ret true ->
  create_access_token [("sub", VStr (username form_data))] None now =
    Ret token ->
  login form_data now (Some d) =
    (Ret [("access_token", VStr token); ("token_type", VStr "bearer")],
     Some d).
Proof.
  intros Hfind Hverify Htoken.
  unfold login, mbind, M_bind, find_one. rewrite Hfind.
  apply find_some in Hfind. destruct Hfind as [Hin Hm].
  apply doc_matches_email in Hm.
  rewrite (collection_docs_truthy _ _ _ Hin).
  unfold lift. rewrite Hverify. simpl negb. cbv iota.
  rewrite (getitem_of_get _ _ _ Hm) by discriminate.
  now rewrite Htoken.
Qed.

(** X4: when the submitted e-mail is that of a stored record whose hash
    verifies the password, login returns a bearer token issued for exactly
    the submitted e-mail; reading [user_doc["email"]] cannot fail, and the
    store is not touched. *)
Theorem login_success (rt : Runtime) (form_data : OAuth2PasswordRequestForm)
    (now : Z) (d : database) (doc : dict) (token : string) :
  List.find (doc_matches [("email", VStr (username form_data))])
    (collection_docs d "user") = Some doc ->
  verify_password (password form_data) (get doc "password_hash") = Ret true ->
  create_access_token [("sub", VStr (username form_data))] None now =
    Ret token ->
  login form_data now (Some d) =
    (Ret [("access_token", VStr token); ("token_type", VStr "bearer")],
     Some d).
Proof. apply login_success_run. Qed.

Lemma login_success_witness :
  @login test_runtime (mkForm "carol@x.com" "pw123") 1700000000000000
    (Some customer_db) =
    (Ret [("access_token", VStr "sub:carol@x.com");
          ("token_type", VStr "bearer")], Some customer_db).
Proof.
  exact (login_success test_runtime (mkForm "carol@x.com" "pw123")
           1700000000000000 customer_db customer "sub:carol@x.com"
           eq_refl eq_refl eq_refl).
Defined.

(** X5: a stored record that has no [password_hash] (the field is missing
    or null) can never be logged into: the login is refused with the same
    400 as a wrong password, and nothing is raised by the lookup of the
    field. *)
Theorem login_without_stored_hash (rt : Runtime)
    (form_data : OAuth2PasswordRequestForm) (now : Z) (d : database)
    (doc : dict) :
  List.find (doc_matches [("email", VStr (username form_data))])
    (collection_docs d "user") = Some doc ->
  get doc "password_hash" = VNone ->
  login form_data now (Some d) = (Raise invalid_credentials, Some d).
Proof.
  intros Hfind Hnone.
  unfold login, mbind, M_bind, find_one. rewrite Hfind.
  apply find_some in Hfind. destruct Hfind as [Hin _].
  rewrite (collection_docs_truthy _ _ _ Hin).
  unfold lift, verify_password, pwd_context_verify. rewrite Hnone.
  reflexivity.
Qed.

Lemma login_without_stored_hash_witness :
  @login test_runtime (mkForm "eve@x.com" "") 0 (Some passwordless_db) =
    (Raise invalid_credentials, Some passwordless_db).
Proof.
  exact (login_without_stored_hash test_runtime (mkForm "eve@x.com" "") 0
           passwordless_db passwordless eq_refl eq_refl).
Defined.

(** ** Signup *)

(** What a signup that returns has done: the e-mail was not registered,
    the password was hashed, one record was appended to the user
    collection, and a token was issued. *)
Lemma signup_returns_inv {rt : Runtime} (body : SignUpBody) (now : Z)
    (salt : string) (d : database) (r : dict) :
  fst (signup body now salt (Some d)) = Ret r ->
  exists hashed token d',
    List.find (doc_matches [("email", VStr (body_email body))])
      (collection_docs d "user") = None /\
    get_password_hash (body_password body) salt = Ret hashed /\
    create_access_token [("sub", VStr (body_email body))] None now =
      Ret token /\
    signup body now salt (Some d) = (Ret r, Some d') /\
    r = [("user_id", VStr (oid_hex (next_oid d)));
         ("access_token", VStr token); ("token_type", VStr "bearer")] /\
    collection_docs d' "user" =
      collection_docs d "user" ++
        [doc_of (oid_hex (next_oid d),
                 User.model_dump
                   (User.mk (body_name body) (body_email body) hashed
                      (body_phone body) true "customer"))] /\
    (forall c, c <> "user" -> collection_docs d' c = collection_docs d c).
Proof.
  unfold signup, mbind, M_bind, find_one.
  destruct (List.find _ (collection_docs d "user")) as [doc|] eqn:Ef.
  - apply find_some in Ef. destruct Ef as [Hin _].
    unfold truthy. rewrite (collection_docs_truthy _ _ _ Hin). discriminate.
  - unfold truthy, lift.
    destruct (get_password_hash (body_password body) salt) as [hashed|e];
      [|discriminate].
    set (user := User.mk (body_name body) (body_email body) hashed
                   (body_phone body) true "customer").
    destruct (create_document_inserts "user" (User.model_dump user) d)
      as [d' [Ecd [Hcoll Hother]]].
    rewrite Ecd.
    destruct (create_access_token [("sub", VStr (body_email body))] None now)
      as [token|e]; [|discriminate].
    simpl. intros [= <-]. exists hashed, token, d'. repeat split; auto.
Qed.

Lemma signup_fresh_email {rt : Runtime} (body : SignUpBody) (d : database) :
  (forall doc, In doc (collection_docs d "user") ->
               get doc "email" <> VStr (body_email body)) ->
  List.find (doc_matches [("email", VStr (body_email body))])
    (collection_docs d "user") = None.
Proof.
  intros Hfresh. apply find_matching_none.
  intros doc Hin. apply not_true_is_false. intros Hm.
  apply doc_matches_email in Hm. exact (Hfresh doc Hin Hm).
Qed.

(** X7: when hashing the password fails, signup fails with that exception
    and has written nothing: the hash is computed before the insertion. *)
Theorem signup_hash_failure_keeps_store (rt : Runtime) (body : SignUpBody)
    (now : Z) (salt : string) (d : database) (e : exn) :
  (forall doc, In doc (collection_docs d "user") ->
               get doc "email" <> VStr (body_email body)) ->
  get_password_hash (body_password body) salt = Raise e ->
  signup body now salt (Some d) = (Raise e, Some d).
Proof.
  intros Hfresh Hhash. unfold signup, mbind, M_bind, find_one.
  rewrite (signup_fresh_email body d Hfresh).
  unfold truthy, lift. now rewrite Hhash.
Qed.

Lemma signup_hash_failure_keeps_store_witness :
  @signup failing_hash_runtime alice 0 "salt" (Some customer_db) =
    (Raise PasswordValueError, Some customer_db).
Proof.
  apply (signup_hash_failure_keeps_store failing_hash_runtime alice 0 "salt"
           customer_db PasswordValueError).
  - intros doc [<-|[]]. discriminate.
  - reflexivity.
Defined.

(** X8: signup is not atomic.  When the token cannot be issued after the
    record was inserted, the request fails but the record stays, so that a
    second attempt with the same e-mail is answered "Email already
    registered". *)
Theorem signup_token_failure_keeps_record (rt : Runtime) (body : SignUpBody)
    (now : Z) (salt : string) (d : database) (hashed : string) (e : exn) :
  (forall doc, In doc (collection_docs d "user") ->
               get doc "email" <> VStr (body_email body)) ->
  get_password_hash (body_password body) salt = Ret hashed ->
  create_access_token [("sub", VStr (body_email body))] None now = Raise e ->
  exists d',
    signup body now salt (Some d) = (Raise e, Some d') /\
    collection_docs d' "user" =
      collection_docs d "user" ++
        [doc_of (oid_hex (next_oid d),
                 User.model_dump
                   (User.mk (body_name body) (body_email body) hashed
                      (body_phone body) true "customer"))] /\
    forall now' salt',
      signup body now' salt' (Some d') =
        (Raise (HTTPException 400 "Email already registered" []), Some d').
Proof.
  intros Hfresh Hhash Htoken.
  set (user := User.mk (body_name body) (body_email body) hashed
                 (body_phone body) true "customer").
  destruct (create_document_inserts "user" (User.model_dump user) d)
    as [d' [Ecd [Hcoll _]]].
  exists d'. split; [|split; [exact Hcoll|]].
  - unfold signup, mbind, M_bind, find_one.
    rewrite (signup_fresh_email body d Hfresh).
    unfold truthy, lift. rewrite Hhash. fold user. rewrite Ecd.
    now rewrite Htoken.
  - intros now' salt'. unfold signup, mbind, M_bind, find_one.
    rewrite Hcoll.
    rewrite find_app_none by exact (signup_fresh_email body d Hfresh).
    cbn [List.find].
    match goal with
    | |- context [doc_matches ?f ?x] =>
        assert (Hm : doc_matches f x = true)
          by (apply doc_matches_email; reflexivity);
        rewrite Hm
    end.
    reflexivity.
Qed.

Lemma signup_token_failure_keeps_record_witness :
  exists d',
    @signup test_runtime alice datetime_max "salt" (Some empty_db) =
      (Raise OverflowError, Some d') /\
    @signup test_runtime alice 0 "salt" (Some d') =
      (Raise (HTTPException 400 "Email already registered" []), Some d').
Proof.
  destruct (signup_token_failure_keeps_record test_runtime alice datetime_max
              "salt" empty_db "$2b$12$pw123" OverflowError
              (fun doc (H : In doc []) => match H with end)
              eq_refl eq_refl) as [d' [H1 [_ H2]]].
  exists d'. split; [exact H1|apply H2].
Defined.

(** The record that a returning signup appended is the one a lookup by its
    e-mail finds. *)
Lemma find_new_user (d d' : database) (oid : string) (u : User.t) :
  List.find (doc_matches [("email", VStr (User.email u))])
    (collection_docs d "user") = None ->
  collection_docs d' "user" =
    collection_docs d "user" ++ [doc_of (oid, User.model_dump u)] ->
  List.find (doc_matches [("email", VStr (User.email u))])
    (collection_docs d' "user") = Some (doc_of (oid, User.model_dump u)).
Proof.
  intros Hnone Hcoll. rewrite Hcoll, find_app_none by exact Hnone.
  cbn [List.find].
  assert (Hm : doc_matches [("email", VStr (User.email u))]
                 (doc_of (oid, User.model_dump u)) = true)
    by (apply doc_matches_email; reflexivity).
  now rewrite Hm.
Qed.

(** X9: signup, then login, then resolution come back to the same record.
    After a signup that returned, a login with the same e-mail and password
    (the stored hash verifying the password) returns a token issued for
    that e-mail, and a token that decodes to that e-mail resolves to the
    record whose identifier the signup returned as [user_id]. *)
Theorem signup_then_login (rt : Runtime) (body : SignUpBody) (now now' : Z)
    (salt hashed token' : string) (d : database) (r : dict) :
  fst (signup body now salt (Some d)) = Ret r ->
  get_password_hash (body_password body) salt = Ret hashed ->
  verify_password (body_password body) (VStr hashed) = Ret true ->
  create_access_token [("sub", VStr (body_email body))] None now' =
    Ret token' ->
  let db' := snd (signup body now salt (Some d)) in
  login (mkForm (body_email body) (body_password body)) now' db' =
    (Ret [("access_token", VStr token'); ("token_type", VStr "bearer")],
     db') /\
  forall bearer now'' payload,
    jwt_decode bearer SECRET_KEY [ALGORITHM] now'' = Ret payload ->
    get payload "sub" = VStr (body_email body) ->
    exists u,
      get_current_user bearer now'' db' = (Ret u, db') /\
      get u "email" = VStr (body_email body) /\
      get r "user_id" = VStr (py_str (get u "_id")).
Proof.
  intros Hret Hhash Hverify Htoken db'.
  destruct (signup_returns_inv body now salt d r Hret)
    as [hashed0 [token [d' [Hnone [Hhash0 [_ [Hrun [Hr [Hcoll _]]]]]]]]].
  rewrite Hhash in Hhash0. injection Hhash0 as <-.
  subst db'. rewrite Hrun. cbn [snd].
  set (user := User.mk (body_name body) (body_email body) hashed
                 (body_phone body) true "customer") in *.
  pose proof (find_new_user d d' (oid_hex (next_oid d)) user Hnone Hcoll)
    as Hfind.
  split.
  - apply (login_success_run rt (mkForm (body_email body) (body_password body))
             now' d' _ token' Hfind); [exact Hverify|exact Htoken].
  - intros bearer now'' payload Hdec Hsub. eexists. split; [|split].
    + unfold get_current_user. rewrite Hdec, Hsub.
      unfold mbind, M_bind, find_one. cbn [User.email user] in Hfind.
      rewrite Hfind. reflexivity.
    + reflexivity.
    + subst r. reflexivity.
Qed.

Lemma signup_then_login_witness :
  let db' := snd (@signup test_runtime alice 0 "salt" (Some empty_db)) in
  @login test_runtime (mkForm "a@x.com" "pw123") 60000000 db' =
    (Ret [("access_token", VStr "sub:a@x.com");
          ("token_type", VStr "bearer")], db') /\
  exists u,
    @get_current_user test_runtime "sub:a@x.com" 120000000 db' = (Ret u, db') /\
    get u "email" = VStr "a@x.com" /\
    VStr "000000000000000000000000" = VStr (@py_str test_runtime (get u "_id")).
Proof.
  destruct (signup_then_login test_runtime alice 0 60000000 "salt"
              "$2b$12$pw123" "sub:a@x.com" empty_db _ eq_refl eq_refl eq_refl
              eq_refl) as [Hlogin Hres].
  split; [exact Hlogin|].
  exact (Hres "sub:a@x.com" 120000000 _ eq_refl eq_refl).
Defined.

(** X10: nobody becomes an administrator by signing up.  The record of a
    signup that returned is active and has the role "customer", so that the
    caller it identifies is refused by both admin-only handlers. *)
Theorem signed_up_user_is_customer (rt : Runtime) (body : SignUpBody)
    (now now' : Z) (salt bearer : string) (d : database) (r payload : dict) :
  fst (signup body now salt (Some d)) = Ret r ->
  jwt_decode bearer SECRET_KEY [ALGORITHM] now' = Ret payload ->
  get payload "sub" = VStr (body_email body) ->
  let db' := snd (signup body now salt (Some d)) in
  exists u,
    get_current_user bearer now' db' = (Ret u, db') /\
    get u "role" = VStr "customer" /\
    get u "is_active" = VBool true /\
    (forall item, add_menu_item item u db' = (Raise forbidden, db')) /\
    list_bookings u db' = (Raise forbidden, db').
Proof.
  intros Hret Hdec Hsub db'.
  destruct (signup_returns_inv body now salt d r Hret)
    as [hashed [token [d' [Hnone [_ [_ [Hrun [_ [Hcoll _]]]]]]]]].
  subst db'. rewrite Hrun. cbn [snd].
  set (user := User.mk (body_name body) (body_email body) hashed
                 (body_phone body) true "customer") in *.
  pose proof (find_new_user d d' (oid_hex (next_oid d)) user Hnone Hcoll)
    as Hfind.
  exists (doc_of (oid_hex (next_oid d), User.model_dump user)).
  split; [|split; [reflexivity|split; [reflexivity|split]]].
  - unfold get_current_user. rewrite Hdec, Hsub.
    unfold mbind, M_bind, find_one. cbn [User.email user] in Hfind.
    rewrite Hfind. reflexivity.
  - intros item. reflexivity.
  - reflexivity.
Qed.

Lemma signed_up_user_is_customer_witness :
  let db' := snd (@signup test_runtime alice 0 "salt" (Some empty_db)) in
  exists u,
    @get_current_user test_runtime "sub:a@x.com" 5 db' = (Ret u, db') /\
    get u "role" = VStr "customer" /\
    get u "is_active" = VBool true /\
    (forall item, add_menu_item item u db' = (Raise forbidden, db')) /\
    @list_bookings test_runtime u db' = (Raise forbidden, db').
Proof.
  exact (signed_up_user_is_customer test_runtime alice 0 5 "salt"
           "sub:a@x.com" empty_db _ _ eq_refl eq_refl eq_refl).
Defined.

(** ** Token issuance *)

(** X11: with no time-to-live, or with one that is not zero, the claims
    handed to [jwt.encode] are the caller's claims with [exp] set (and
    overwritten if the caller supplied one) to the call time plus the
    time-to-live, 24 hours when none is given; every other claim is kept
    as it was. *)
Theorem token_claims_keep_data (data : dict) (expires_delta : option Z)
    (now : Z) :
  expires_delta <> Some 0 ->
  in_datetime_range (now + default (86400 * 1000000) expires_delta) ->
  exists claims,
    access_token_claims data expires_delta now = Ret claims /\
    get claims "exp" =
      VDatetime (now + default (86400 * 1000000) expires_delta) /\
    forall k, k <> "exp" -> get claims k = get data k.
Proof.
  intros Hnz Hr. unfold access_token_claims.
  assert (Heff : timedelta_or expires_delta
                   (timedelta_minutes ACCESS_TOKEN_EXPIRE_MINUTES) =
                 default (86400 * 1000000) expires_delta).
  { destruct expires_delta as [ttl|]; [|reflexivity]. simpl.
    destruct (Z.eqb_spec ttl 0) as [->|]; [contradiction|reflexivity]. }
  rewrite Heff, (datetime_add_in_range _ _ Hr).
  eexists. split; [reflexivity|]. split.
  - apply get_update_exp.
  - intros k Hk. unfold update. simpl. apply get_setitem_other. congruence.
Qed.

Lemma token_claims_keep_data_witness :
  exists claims,
    access_token_claims
      [("sub", VStr "a@x.com"); ("exp", VInt 0); ("scope", VStr "orders")]
      (Some (-1000000)) 1700000000000000 = Ret claims /\
    get claims "exp" = VDatetime 1699999999000000 /\
    forall k, k <> "exp" ->
      get claims k =
      get [("sub", VStr "a@x.com"); ("exp", VInt 0); ("scope", VStr "orders")]
        k.
Proof.
  apply (token_claims_keep_data
           [("sub", VStr "a@x.com"); ("exp", VInt 0); ("scope", VStr "orders")]
           (Some (-1000000)) 1700000000000000).
  - discriminate.
  - unfold in_datetime_range, datetime_min, datetime_max. simpl. lia.
Defined.

(** X12: when the expiry falls outside the range of datetimes, issuing the
    token raises [OverflowError] whatever the libraries would answer:
    [jwt.encode] is not reached. *)
Theorem token_expiry_overflow (rt : Runtime) (data : dict)
    (expires_delta : option Z) (now : Z) :
  datetime_max <
    now + timedelta_or expires_delta
            (timedelta_minutes ACCESS_TOKEN_EXPIRE_MINUTES) ->
  create_access_token data expires_delta now = Raise OverflowError.
Proof.
  intros Hlt. unfold create_access_token, access_token_claims, datetime_add.
  cbv zeta.
  destruct (Z.leb_spec
              (now + timedelta_or expires_delta
                       (timedelta_minutes ACCESS_TOKEN_EXPIRE_MINUTES))
              datetime_max) as [Hle|_]; [lia|].
  rewrite andb_false_r. reflexivity.
Qed.

Lemma token_expiry_overflow_witness :
  @create_access_token test_runtime [("sub", VStr "a@x.com")] None
    (datetime_max - 1000000) = Raise OverflowError.
Proof.
  apply (token_expiry_overflow test_runtime). vm_compute. reflexivity.
Defined.

(** ** Menu, location, bookings *)

Lemma doc_matches_nil (o : dict) : doc_matches [] o = true.
Proof. reflexivity. Qed.

Lemma filter_no_filter (l : list dict) : List.filter (doc_matches []) l = l.
Proof. apply filter_all. intros; apply doc_matches_nil. Qed.

(** The listings without filter return every document of their collection
    with its identifier as text. *)
Lemma unfiltered_listings {rt : Runtime} (d : database) :
  list_menu None None (Some d) =
    (Ret (map with_str_id (collection_docs d "menuitem")), Some d) /\
  forall user, get user "role" = VStr "admin" ->
    list_bookings user (Some d) =
      (Ret (map with_str_id (collection_docs d "booking")), Some d).
Proof.
  split.
  - unfold list_menu, mbind, M_bind, get_documents, lift.
    rewrite mapM_serialize_filter. simpl menu_filters.
    now rewrite filter_no_filter.
  - intros user Hadmin. unfold list_bookings. rewrite Hadmin. cbn [ne_str].
    change (negb ("admin" =? "admin")%string) with false. cbv iota.
    unfold mbind, M_bind, get_documents, lift.
    rewrite mapM_serialize_filter. now rewrite filter_no_filter.
Qed.

(** X13: the menu listing treats an empty category like an absent one and
    then returns the whole menu, while [bestseller = False] is a filter of
    its own; with both given it returns, in insertion order, exactly the
    items of that category with that flag, each with its identifier as
    text. *)
Theorem list_menu_filters (rt : Runtime) (d : database) :
  (forall bestseller,
     list_menu (Some "") bestseller = list_menu None bestseller) /\
  list_menu None None (Some d) =
    (Ret (map with_str_id (collection_docs d "menuitem")), Some d) /\
  (forall b,
     list_menu None (Some b) (Some d) =
       (Ret (map with_str_id
               (List.filter
                  (fun o => value_eqb (get o "is_bestseller") (VBool b))
                  (collection_docs d "menuitem"))), Some d)) /\
  (forall c0 c b,
     list_menu (Some (String c0 c)) (Some b) (Some d) =
       (Ret (map with_str_id
               (List.filter
                  (fun o => value_eqb (get o "category") (VStr (String c0 c))
                            && value_eqb (get o "is_bestseller") (VBool b))
                  (collection_docs d "menuitem"))), Some d)).
Proof.
  split; [reflexivity|]. split; [|split].
  - apply unfiltered_listings.
  - intros b. unfold list_menu, mbind, M_bind, get_documents, lift.
    rewrite mapM_serialize_filter. do 3 f_equal.
    apply filter_ext. intros o. unfold doc_matches. simpl.
    apply andb_true_r.
  - intros c0 c b. unfold list_menu, mbind, M_bind, get_documents, lift.
    rewrite mapM_serialize_filter. do 3 f_equal.
    apply filter_ext. intros o. unfold doc_matches, menu_filters. simpl.
    now rewrite andb_true_r.
Qed.

(** X14: an item that an administrator adds shows up, last, in the
    unfiltered menu listing, with the fields of the request and with the
    identifier that [add_menu_item] returned. *)
Theorem added_item_is_listed (rt : Runtime) (item : MenuItem.t) (user : dict)
    (d : database) :
  get user "role" = VStr "admin" ->
  exists d',
    add_menu_item item user (Some d) =
      (Ret [("id", VStr (oid_hex (next_oid d)))], Some d') /\
    list_menu None None (Some d') =
      (Ret (map with_str_id (collection_docs d "menuitem") ++
            [("_id", VStr (oid_hex (next_oid d))) :: MenuItem.model_dump item]),
       Some d').
Proof.
  intros Hadmin.
  destruct (create_document_inserts "menuitem" (MenuItem.model_dump item) d)
    as [d' [Ecd [Hcoll _]]].
  exists d'. split.
  - unfold add_menu_item. rewrite Hadmin. cbn [ne_str].
    change (negb ("admin" =? "admin")%string) with false. cbv iota.
    unfold mbind, M_bind. now rewrite Ecd.
  - rewrite (proj1 (unfiltered_listings d')), Hcoll, map_app. reflexivity.
Qed.

Lemma added_item_is_listed_witness :
  exists d',
    add_menu_item sample_item admin (Some admin_db) =
      (Ret [("id", VStr "000000000000000000000001")], Some d') /\
    @list_menu test_runtime None None (Some d') =
      (Ret [("_id", VStr "000000000000000000000001")
              :: MenuItem.model_dump sample_item], Some d').
Proof.
  exact (added_item_is_listed test_runtime sample_item admin admin_db eq_refl).
Defined.

(** X15: the location is the default address when the location collection
    is empty, and otherwise its first document with the identifier as text;
    with a configured store the handler never raises. *)
Theorem get_location_default_or_first (rt : Runtime) (d : database) :
  (collection_docs d "location" = [] ->
   get_location (Some d) = (Ret default_location, Some d)) /\
  (forall first rest,
     collection_docs d "location" = first :: rest ->
     get_location (Some d) = (Ret (with_str_id first), Some d)) /\
  exists location, get_location (Some d) = (Ret location, Some d).
Proof.
  assert (Hrun : get_location (Some d) =
                 match collection_docs d "location" with
                 | first :: _ => (Ret (with_str_id first), Some d)
                 | [] => (Ret default_location, Some d)
                 end).
  { unfold get_location, mbind, M_bind, get_documents.
    rewrite filter_no_filter.
    destruct (collection_docs d "location") as [|first rest] eqn:E;
      [reflexivity|].
    unfold lift. rewrite (serialize_id_stored d "location" first);
      [reflexivity|]. rewrite E. now left. }
  rewrite Hrun. split; [|split].
  - now intros ->.
  - now intros first rest ->.
  - destruct (collection_docs d "location"); eauto.
Qed.

(** X16: a booking, which anyone may make, is stored as sent: after
    [create_booking] the administrator's listing is the former listing
    followed by the new booking, under the identifier that was returned. *)
Theorem booking_is_listed (rt : Runtime) (booking : Booking.t) (user : dict)
    (d : database) :
  get user "role" = VStr "admin" ->
  exists d',
    create_booking booking (Some d) =
      (Ret [("id", VStr (oid_hex (next_oid d)));
            ("message", VStr "Booking received")], Some d') /\
    list_bookings user (Some d') =
      (Ret (map with_str_id (collection_docs d "booking") ++
            [("_id", VStr (oid_hex (next_oid d)))
               :: Booking.model_dump booking]), Some d').
Proof.
  intros Hadmin.
  destruct (create_document_inserts "booking" (Booking.model_dump booking) d)
    as [d' [Ecd [Hcoll _]]].
  exists d'. split.
  - unfold create_booking, mbind, M_bind. now rewrite Ecd.
  - rewrite (proj2 (unfiltered_listings d') user Hadmin), Hcoll, map_app.
    reflexivity.
Qed.

Lemma booking_is_listed_witness :
  exists d',
    create_booking sample_booking (Some admin_db) =
      (Ret [("id", VStr "000000000000000000000001");
            ("message", VStr "Booking received")], Some d') /\
    @list_bookings test_runtime admin (Some d') =
      (Ret [("_id", VStr "000000000000000000000001")
              :: Booking.model_dump sample_booking], Some d').
Proof.
  exact (booking_is_listed test_runtime sample_booking admin admin_db eq_refl).
Defined.

(** ** Orders *)

Lemma list_orders_run {rt : Runtime} (user : dict) (d : database) :
  list_orders user (Some d) =
    (Ret (map with_str_id
            (List.filter
               (fun o => value_eqb (get o "user_id")
                           (VStr (py_str (get user "_id"))))
               (collection_docs d "order"))), Some d).
Proof.
  unfold list_orders, mbind, M_bind, get_documents, lift.
  rewrite mapM_serialize_filter. do 3 f_equal.
  apply filter_ext. intros o. unfold doc_matches. simpl. apply andb_true_r.
Qed.

(** X17: an order is listed to the caller who placed it and to nobody
    else.  After [create_order] for a user, that user's listing is the
    former one followed by the new order, stamped with the user's
    identifier; the listing of any user whose identifier has another text
    is what it was before. *)
Theorem order_listing_isolated (rt : Runtime) (order : Order.t)
    (user : dict) (d : database) :
  dict_truthy user = true ->
  exists d',
    create_order order user (Some d) =
      (Ret [("id", VStr (oid_hex (next_oid d)));
            ("message", VStr "Order placed")], Some d') /\
    fst (list_orders user (Some d')) =
      Ret (map with_str_id
             (List.filter
                (fun o => value_eqb (get o "user_id")
                            (VStr (py_str (get user "_id"))))
                (collection_docs d "order")) ++
           [("_id", VStr (oid_hex (next_oid d)))
              :: setitem (Order.model_dump order) "user_id"
                   (VStr (py_str (get user "_id")))]) /\
    forall other,
      py_str (get other "_id") <> py_str (get user "_id") ->
      fst (list_orders other (Some d')) = fst (list_orders other (Some d)).
Proof.
  intros Htruthy.
  set (uid := py_str (get user "_id")).
  set (order_dict := setitem (Order.model_dump order) "user_id" (VStr uid)).
  destruct (create_document_inserts "order" order_dict d)
    as [d' [Ecd [Hcoll _]]].
  assert (Hnew : forall x,
            value_eqb
              (get (doc_of (oid_hex (next_oid d), without_id order_dict))
                 "user_id") (VStr x) = String.eqb uid x).
  { intros x. reflexivity. }
  exists d'. split; [|split].
  - unfold create_order. rewrite Htruthy. fold uid. fold order_dict.
    unfold mbind, M_bind. now rewrite Ecd.
  - rewrite list_orders_run. cbn [fst]. fold uid. rewrite Hcoll, List.filter_app.
    cbn [List.filter]. rewrite Hnew, String.eqb_refl, map_app. reflexivity.
  - intros other Hne. rewrite !list_orders_run. cbn [fst].
    rewrite Hcoll, List.filter_app. cbn [List.filter]. rewrite Hnew.
    destruct (String.eqb_spec uid (py_str (get other "_id"))) as [E|_].
    + exfalso. apply Hne. now rewrite <- E.
    + now rewrite app_nil_r.
Qed.

Lemma order_listing_isolated_witness :
  exists d',
    @create_order test_runtime sample_order customer (Some customer_db) =
      (Ret [("id", VStr "000000000000000000000001");
            ("message", VStr "Order placed")], Some d') /\
    fst (@list_orders test_runtime customer (Some d')) =
      Ret [("_id", VStr "000000000000000000000001")
             :: setitem (Order.model_dump sample_order) "user_id"
                  (VStr "000000000000000000000000")] /\
    fst (@list_orders test_runtime
           [("_id", VObjectId "00000000000000000000000f")] (Some d')) =
    fst (@list_orders test_runtime
           [("_id", VObjectId "00000000000000000000000f")] (Some customer_db)).
Proof.
  destruct (order_listing_isolated test_runtime sample_order customer
              customer_db eq_refl) as [d' [H1 [H2 H3]]].
  exists d'. split; [exact H1|]. split; [exact H2|].
  apply H3. intros H. vm_compute in H. discriminate H.
Defined.

(** ** Serialising identifiers *)

(** X18: [d["_id"] = str(d["_id"])] raises [KeyError] on a document
    without identifier; on a document that has one it replaces the
    identifier by a text and changes nothing else (same fields, same
    number of entries), and doing it twice is the same as doing it once. *)
Theorem serialize_id_behaviour (rt : Runtime) (d : dict) :
  (getitem d "_id" = None -> serialize_id d = Raise KeyError) /\
  (forall d',
     serialize_id d = Ret d' ->
     (exists text, get d' "_id" = VStr text) /\
     (forall k, k <> "_id" -> get d' k = get d k) /\
     length d' = length d /\
     serialize_id d' = Ret d').
Proof.
  unfold serialize_id. split.
  - now intros ->.
  - intros d'. destruct (getitem d "_id") as [v|] eqn:Eg; [|discriminate].
    intros [= <-]. split; [|split; [|split]].
    + eexists. apply get_setitem_same.
    + intros k Hk. apply get_setitem_other. congruence.
    + eapply setitem_length_present; eauto.
    + rewrite getitem_setitem_same, setitem_setitem_same. reflexivity.
Qed.
